(** * jwt_authenticator: the JWT decorator of [jwt_authenticator/authenticator.py]

    A shallow embedding of [JWTAuthenticator] and the properties of its
    request pipeline: token extraction (cookie, then Authorization header),
    decoding through PyJWT, the [jwt_token] lookup through PyMySQL, and the
    mapping of exceptions to HTTP responses. *)

From Stdlib Require Import ZArith Ascii String List Lia.
From stdpp Require Import base option list strings gmap.

Local Open Scope string_scope.
Local Open Scope list_scope.
Local Open Scope stdpp_scope.

(** ** Python strings *)

Module PyStr.

(** [s.startswith(p)] *)
Fixpoint startswith (p s : string) : bool :=
  match p, s with
  | EmptyString, _ => true
  | String a p', String b s' => if Ascii.eqb a b then startswith p' s' else false
  | String _ _, EmptyString => false
  end.

(** [p in s] for strings: [p] occurs in [s] as a substring. *)
Fixpoint contains (p s : string) : bool :=
  match s with
  | EmptyString => startswith p EmptyString
  | String _ s' => startswith p s || contains p s'
  end.

(** The scan of [s.split(sep)] for a non-empty [sep]: left to right, cut
    at every occurrence of [sep] that does not overlap the previous one.
    [skip] counts the characters of a separator still to be dropped. *)
Fixpoint split_scan (sep : string) (skip : nat) (s : string) : list string :=
  match s with
  | EmptyString => [EmptyString]
  | String c s' =>
      match skip with
      | S k => split_scan sep k s'
      | O =>
          if startswith sep s
          then EmptyString :: split_scan sep (String.length sep - 1) s'
          else match split_scan sep 0 s' with
               | piece :: rest => String c piece :: rest
               | [] => [String c EmptyString]
               end
      end
  end.

(** [s.split(sep)] with a separator; every separator in the source is a
    non-empty literal. *)
Definition split (sep s : string) : list string := split_scan sep 0 s.

(** [bool(s)]: a string is truthy when it is not empty. *)
Definition truthy (s : string) : bool :=
  match s with EmptyString => false | String _ _ => true end.

End PyStr.

(** ** Python values and exceptions *)

(** The values a decoded JSON claim can hold.  A float is kept as mantissa
    and binary exponent: only its being zero matters to [bool(v)]. *)
#[warnings="-register-all"]
Inductive value : Type :=
| VNone
| VBool (b : bool)
| VInt (n : Z)
| VFloat (mantissa exponent : Z)
| VStr (s : string)
| VList (l : list value)
| VDict (d : gmap string value).

(** [bool(v)] *)
Definition truthy (v : value) : bool :=
  match v with
  | VNone => false
  | VBool b => b
  | VInt n => negb (n =? 0)%Z
  | VFloat m _ => negb (m =? 0)%Z
  | VStr s => PyStr.truthy s
  | VList l => match l with [] => false | _ :: _ => true end
  | VDict d => negb (bool_decide (d = ∅))
  end.

(** The exception classes the pipeline can meet, all below [Exception]:
    builtins, PyJWT's ([jwt.exceptions]) and PyMySQL's.  [OtherClass] stands
    for any class unrelated to the ones [_handle_error] tests for. *)
Inductive exn_class : Type :=
| ValueError
| LookupError
| IndexError
| NameError
| UnboundLocalError
| PyJWTError
| InvalidTokenError
| DecodeError
| InvalidSignatureError
| ExpiredSignatureError
| InvalidAlgorithmError
| InvalidKeyError
| MySQLError
| OperationalError
| OtherClass (name : string).

#[global] Instance exn_class_eq_dec : EqDecision exn_class.
Proof. solve_decision. Defined.

(** The direct base class, [None] when it is [Exception] itself. *)
Definition base (c : exn_class) : option exn_class :=
  match c with
  | IndexError => Some LookupError
  | UnboundLocalError => Some NameError
  | InvalidTokenError => Some PyJWTError
  | DecodeError => Some InvalidTokenError
  | InvalidSignatureError => Some DecodeError
  | ExpiredSignatureError => Some InvalidTokenError
  | InvalidAlgorithmError => Some InvalidTokenError
  | InvalidKeyError => Some PyJWTError
  | OperationalError => Some MySQLError
  | ValueError | LookupError | NameError | PyJWTError | MySQLError
  | OtherClass _ => None
  end.

(** [issubclass(c, d)]; the hierarchy above is at most four classes deep. *)
Fixpoint issubclass_upto (depth : nat) (c d : exn_class) : bool :=
  bool_decide (c = d) ||
  match depth, base c with
  | S k, Some b => issubclass_upto k b d
  | _, _ => false
  end.

Definition issubclass : exn_class → exn_class → bool := issubclass_upto 4.

(** An exception instance: its class and [str(e)]. *)
Record exn : Type := Exn { exn_cls : exn_class; exn_str : string }.

Definition isinstance (e : exn) (c : exn_class) : bool := issubclass (exn_cls e) c.

(** ** The HTTP objects of [azure.functions] *)

(** [HttpRequest]: the header table, keyed by the header names as the
    code asks for them, and the [jwt_payload] attribute the decorator sets
    on the request object ([None] while it is unset). *)
Record HttpRequest : Type := {
  headers : gmap string string;
  jwt_payload : option (gmap string value)
}.

(** [req.jwt_payload = payload], on the one request object the handler is
    then given. *)
Definition set_jwt_payload (payload : gmap string value) (req : HttpRequest) : HttpRequest :=
  {| headers := headers req; jwt_payload := Some payload |}.

(** [HttpResponse(body, status_code=..., mimetype=...)] *)
Record HttpResponse : Type := {
  body : string;
  status_code : Z;
  mimetype : string
}.

(** ** Effects: exceptions and the calls that leave the function *)

(** A row of [jwt_token] as the cursor returns it. *)
Definition row : Type := list value.

(** [bool(token_record)]: a row is a tuple, falsy only when empty. *)
Definition row_truthy (r : row) : bool :=
  match r with [] => false | _ :: _ => true end.

Inductive event : Type :=
| LogError (msg : string)
| DbConnect
| DbCursor
| DbExecute (sql : string) (args : list value)
| DbFetchone
| DbCursorClose
| DbClose
| CallHandler (req : HttpRequest).

(** A computation: the events it performed, in order, and either the
    exception it raised or the value it returned. *)
Definition Py (A : Type) : Type := list event * (exn + A).

Definition ret {A} (a : A) : Py A := ([], inr a).
Definition raise {A} (e : exn) : Py A := ([], inl e).
Definition emit (ev : event) : Py unit := ([ev], inr tt).

Definition bind {A B} (m : Py A) (k : A → Py B) : Py B :=
  match m with
  | (t, inl e) => (t, inl e)
  | (t, inr a) => let '(t', r) := k a in (t ++ t', r)
  end.

#[global] Instance Py_ret : MRet Py := @ret.
#[global] Instance Py_bind : MBind Py := fun A B k m => bind m k.

(** A call to a collaborator: the call is recorded, then it returns or
    raises. *)
Definition call {A} (ev : event) (outcome : exn + A) : Py A := ([ev], outcome).

(** [try: body finally: cleanup].  An exception of [cleanup] replaces the
    outcome of [body]. *)
Definition try_finally {A} (body : Py A) (cleanup : Py unit) : Py A :=
  let '(t, r) := body in
  match cleanup with
  | (t', inl e) => (t ++ t', inl e)
  | (t', inr _) => (t ++ t', r)
  end.

(** [try: body except Exception as e: handler(e)], followed by [rest] when
    [body] raised nothing. *)
Definition try_except {A B} (body : Py A) (handler : exn → Py B) (rest : A → Py B) : Py B :=
  match body with
  | (t, inl e) => let '(t', r) := handler e in (t ++ t', r)
  | (t, inr a) => let '(t', r) := rest a in (t ++ t', r)
  end.

(** [l[i]] on a list. *)
Definition getitem {A} (l : list A) (i : nat) : Py A :=
  match l !! i with
  | Some x => ret x
  | None => raise (Exn IndexError "list index out of range")
  end.

(** Running the computations of a list in order, as a comprehension does. *)
Fixpoint for_each {A B} (f : A → Py B) (l : list A) : Py (list B) :=
  match l with
  | [] => ret []
  | x :: l' => y ← f x; ys ← for_each f l'; ret (y :: ys)
  end.

Definition returned_or_raised (o : option exn) : exn + unit :=
  match o with
  | None => inr tt
  | Some e => inl e
  end.

(** A computation that performs no call. *)
Definition silent {A} (m : Py A) : Prop := m.1 = [].

(** ** The collaborators: PyJWT and PyMySQL *)

(** A PyMySQL cursor: what [execute] and the following [fetchone] do for a
    statement and its arguments, and what closing the cursor does (for
    [execute] and the closes, [None] is a plain return). *)
Record Cursor : Type := {
  execute : string → list value → option exn;
  fetchone : string → list value → exn + option row;
  cursor_close : option exn
}.

(** A PyMySQL connection. *)
Record Connection : Type := {
  cursor : exn + Cursor;
  close : option exn
}.

(** The double quote character, and the JSON text of every error body of
    the source: an object with the members success (false) and error (the
    message, between double quotes, as it is). *)
Definition dquote : string :=
  String (Ascii false true false false false true false false) EmptyString.

Definition error_body (message : string) : string :=
  "{" +:+ dquote +:+ "success" +:+ dquote +:+ ": false, "
      +:+ dquote +:+ "error" +:+ dquote +:+ ": " +:+ dquote +:+ message +:+ dquote +:+ "}".

(** ** [JWTAuthenticator] *)

(** The instance: [self.db_config] and [self.secret_key].  [self.logger]
    shows as the [LogError] events. *)
Record JWTAuthenticator : Type := {
  db_config : gmap string value;
  secret_key : string
}.

Section Authenticator.

(** [jwt.decode(token, key, algorithms=...)] and [pymysql.connect] on the unpacked configuration. *)
Variable jwt_decode : string → string → list string → exn + gmap string value.
Variable pymysql_connect : gmap string value → exn + Connection.

Variable self : JWTAuthenticator.

(** One item of the dict comprehension:
    [cookie.split('=')[0]: cookie.split('=')[1]]. *)
Definition cookie_item (cookie : string) : Py (string * string) :=
  k ← getitem (PyStr.split "=" cookie) 0;
  v ← getitem (PyStr.split "=" cookie) 1;
  ret (k, v).

(** The [cookies] dict of [_extract_token]: one item per piece of the
    header that contains [=], a later item replacing an earlier one of the
    same key. *)
Definition cookies_of (cookie_header : string) : Py (gmap string string) :=
  items ← for_each cookie_item
            (List.filter (PyStr.contains "=") (PyStr.split "; " cookie_header));
  ret (foldl (λ d item, <[item.1 := item.2]> d) ∅ items).

(** The block under [if not token:]: the token is the second piece of the
    Authorization header split at spaces. *)
Definition authorization_token (req : HttpRequest) : Py string :=
  match headers req !! "Authorization" with
  | Some auth_header =>
      if PyStr.truthy auth_header
      then getitem (PyStr.split " " auth_header) 1
      else raise (Exn ValueError "Token is missing")
  | None => raise (Exn ValueError "Token is missing")
  end.

Definition _extract_token (req : HttpRequest) : Py string :=
  let cookie_header := default "" (headers req !! "Cookie") in
  cookies ← cookies_of cookie_header;
  let token := cookies !! "auth_token" in
  match token with
  | Some t => if PyStr.truthy t then ret t else authorization_token req
  | None => authorization_token req
  end.

Definition _decode_token (token : string) : Py (gmap string value) :=
  ([], jwt_decode token (secret_key self) ["HS256"]).

Definition select_token : string := "SELECT * FROM jwt_token WHERE token_id = %s".

(** [not token_record] *)
Definition no_record (token_record : option row) : bool :=
  match token_record with
  | None => true
  | Some r => negb (row_truthy r)
  end.

(** [token_id] is [payload.get('token_id')]: [VNone] for an absent key.
    When [pymysql.connect] raises, [connection] is still unbound as the
    [finally] clause reads it, and the [UnboundLocalError] of that read
    replaces the exception of [connect]. *)
Definition _verify_token_in_db (token_id : value) : Py unit :=
  if negb (truthy token_id)
  then raise (Exn ValueError "Token ID is missing from payload")
  else
    match pymysql_connect (db_config self) with
    | inl e =>
        try_finally
          (call DbConnect (inl e))
          (raise (Exn UnboundLocalError
             "cannot access local variable 'connection' where it is not associated with a value"))
    | inr connection =>
        _ ← call DbConnect (inr tt);
        try_finally
          (cur ← call DbCursor (cursor connection);
           try_finally
             (_ ← call (DbExecute select_token [token_id])
                       (returned_or_raised (execute cur select_token [token_id]));
              token_record ← call DbFetchone (fetchone cur select_token [token_id]);
              if no_record token_record
              then raise (Exn ValueError "JWT token is blacklisted")
              else ret tt)
             (call DbCursorClose (returned_or_raised (cursor_close cur))))
          (call DbClose (returned_or_raised (close connection)))
    end.

Definition _handle_error (e : exn) : Py HttpResponse :=
  _ ← emit (LogError ("JWT validation error: " +:+ exn_str e));
  if isinstance e ExpiredSignatureError then
    ret {| body := error_body "Token is expired. Please log in again.";
           status_code := 401;
           mimetype := "application/json" |}
  else if isinstance e InvalidTokenError then
    ret {| body := error_body "Invalid token.";
           status_code := 401;
           mimetype := "application/json" |}
  else if isinstance e ValueError then
    ret {| body := error_body (exn_str e);
           status_code := 401;
           mimetype := "application/json" |}
  else
    ret {| body := error_body "Internal server error during authentication.";
           status_code := 500;
           mimetype := "application/json" |}.

(** The body of the [try] statement of [decorated_function]: the three
    checks in order, then [req.jwt_payload = payload]. *)
Definition try_block (req : HttpRequest) : Py HttpRequest :=
  token ← _extract_token req;
  payload ← _decode_token token;
  _ ← _verify_token_in_db (default VNone (payload !! "token_id"));
  ret (set_jwt_payload payload req).

(** [jwt_required(f)]: the function the decorator returns.  [f] is the
    wrapped handler with its further arguments already given; it returns a
    value of [R] or raises. *)
Definition decorated_function {R} (f : HttpRequest → exn + R) (req : HttpRequest)
  : Py (HttpResponse + R) :=
  try_except
    (try_block req)
    (λ e, resp ← _handle_error e; ret (inl resp))
    (λ req', r ← call (CallHandler req') (f req'); ret (inr r)).

(** The store calls of a lookup that runs to its end. *)
Definition lookup_events (token_id : value) : list event :=
  [DbConnect; DbCursor; DbExecute select_token [token_id]; DbFetchone;
   DbCursorClose; DbClose].

(** The store answers for [token_id] with a record: every call of the
    lookup returns, and [fetchone] gives a row. *)
Definition has_record (token_id : value) : Prop :=
  ∃ conn cur rec,
    pymysql_connect (db_config self) = inr conn ∧
    cursor conn = inr cur ∧
    execute cur select_token [token_id] = None ∧
    fetchone cur select_token [token_id] = inr (Some rec) ∧
    row_truthy rec = true ∧
    cursor_close cur = None ∧
    close conn = None.

(** One of the three checks raises [e] on [req]. *)
Definition check_raises (req : HttpRequest) (e : exn) : Prop :=
  (_extract_token req).2 = inl e ∨
  ∃ token, (_extract_token req).2 = inr token ∧
    ((_decode_token token).2 = inl e ∨
     ∃ payload, (_decode_token token).2 = inr payload ∧
       (_verify_token_in_db (default VNone (payload !! "token_id"))).2 = inl e).

(** All three checks pass on [req], decoding to [payload]. *)
Definition checks_pass (req : HttpRequest) (payload : gmap string value) : Prop :=
  ∃ token, (_extract_token req).2 = inr token ∧
    (_decode_token token).2 = inr payload ∧
    (_verify_token_in_db (default VNone (payload !! "token_id"))).2 = inr tt.

Definition is_call (ev : event) : bool :=
  match ev with CallHandler _ => true | _ => false end.


(** [jwt_required(f)] returns [decorated_function], closed over [f]. *)
Definition jwt_required {R} (f : HttpRequest → exn + R)
  : HttpRequest → Py (HttpResponse + R) :=
  decorated_function f.

(** The calls to the store among the events. *)
Definition is_store_event (ev : event) : bool :=
  match ev with
  | DbConnect | DbCursor | DbExecute _ _ | DbFetchone | DbCursorClose | DbClose => true
  | LogError _ | CallHandler _ => false
  end.

End Authenticator.

(** [JWTAuthenticator(db_config, secret_key)]: [__init__] keeps both
    arguments as they are. *)
Definition __init__ (db_config : gmap string value) (secret_key : string)
  : JWTAuthenticator :=
  {| db_config := db_config; secret_key := secret_key |}.

(** ** Sample collaborators

    A token codec and a store small enough to run: the token is the text
    [alg.token_id.signature], valid when the signature is the key, expired
    when its identifier is [old]; the store holds the listed identifiers. *)

Module Sample.

Definition decode (token key : string) (algorithms : list string)
  : exn + gmap string value :=
  match PyStr.split "." token with
  | [alg; tid; sig] =>
      if bool_decide (alg ∈ algorithms) then
        if String.eqb sig key then
          if String.eqb tid "old"
          then inl (Exn ExpiredSignatureError "Signature has expired")
          else if String.eqb tid "" then inr ∅
          else inr {[ "token_id" := VStr tid ]}
        else inl (Exn InvalidSignatureError "Signature verification failed")
      else inl (Exn InvalidAlgorithmError "The specified alg value is not allowed")
  | _ => inl (Exn DecodeError "Not enough segments")
  end.

(** The algorithm a token's header names. *)
Definition header_alg (token : string) : option string :=
  match PyStr.split "." token with
  | [alg; _; _] => Some alg
  | _ => None
  end.

Definition lookup_row (ids : list string) (args : list value) : option row :=
  match args with
  | [VStr t] => if bool_decide (t ∈ ids) then Some [VStr t] else None
  | _ => None
  end.

Definition store_cursor (ids : list string) : Cursor :=
  {| execute := λ _ _, None;
     fetchone := λ _ args, inr (lookup_row ids args);
     cursor_close := None |}.

Definition connection (ids : list string) : Connection :=
  {| cursor := inr (store_cursor ids); close := None |}.

Definition connect (ids : list string) (_ : gmap string value) : exn + Connection :=
  inr (connection ids).

Definition connect_down (_ : gmap string value) : exn + Connection :=
  inl (Exn OperationalError "(2003, 'Can not connect to MySQL server')").

Definition auth : JWTAuthenticator := {| db_config := ∅; secret_key := "k" |}.

Definition request (hs : list (string * string)) : HttpRequest :=
  {| headers := list_to_map hs; jwt_payload := None |}.

(** A handler that answers with the [token_id] claim it was given. *)
Definition handler (req : HttpRequest) : exn + option value :=
  inr (p ← jwt_payload req; p !! "token_id").

End Sample.

(** ** Splitting *)

Example split_cookie_header :
  PyStr.split "; " "a=1; auth_token=xyz; b=" = ["a=1"; "auth_token=xyz"; "b="].
Proof. reflexivity. Qed.

Example split_trailing_separator : PyStr.split "; " "a; " = ["a"; ""].
Proof. reflexivity. Qed.

Example split_empty : PyStr.split "; " "" = [""].
Proof. reflexivity. Qed.

Example split_every_equals : PyStr.split "=" "k=v=w" = ["k"; "v"; "w"].
Proof. reflexivity. Qed.

Example split_no_overlap : PyStr.split "aa" "aaa" = [""; "a"].
Proof. reflexivity. Qed.


Section Split.

Lemma split_scan_nonempty sep n s : PyStr.split_scan sep n s ≠ [].
Proof.
  revert n. induction s as [|c s IH]; intros n; simpl; [done|].
  destruct n as [|n]; [|apply IH].
  destruct (PyStr.startswith sep (String c s)); [done|].
  destruct (PyStr.split_scan sep 0 s); done.
Qed.

(** A string without the separator is returned whole. *)
Lemma split_absent sep s :
  PyStr.contains sep s = false → PyStr.split sep s = [s].
Proof.
  unfold PyStr.split.
  induction s as [|c s IH]; simpl; [done|].
  intros [Hhere Hlater]%orb_false_iff.
  rewrite Hhere, (IH Hlater). done.
Qed.

(** Where the separator is one character, the first piece ends at its
    first occurrence and the scan starts afresh behind it. *)
Lemma split_char_cons (a c : ascii) s :
  PyStr.split (String a "") (String c s) =
    if Ascii.eqb a c then "" :: PyStr.split (String a "") s
    else match PyStr.split (String a "") s with
         | piece :: rest => String c piece :: rest
         | [] => [String c ""]
         end.
Proof. unfold PyStr.split. simpl. destruct (Ascii.eqb a c); done. Qed.

Lemma split_char_app (a : ascii) p s :
  PyStr.contains (String a "") p = false →
  PyStr.split (String a "") (p +:+ String a s) = p :: PyStr.split (String a "") s.
Proof.
  induction p as [|c p IH]; intros Hp.
  - change ("" +:+ String a s) with (String a s).
    rewrite split_char_cons, Ascii.eqb_refl. done.
  - change (String c p +:+ String a s) with (String c (p +:+ String a s)).
    simpl in Hp. apply orb_false_iff in Hp as [Hc Hp].
    rewrite split_char_cons.
    destruct (Ascii.eqb a c); [done|].
    rewrite (IH Hp). done.
Qed.

(** [sep in s] holds exactly when [s.split(sep)] has a second piece: the
    guard of the cookie comprehension keeps its index 1 in range. *)
Lemma contains_split_second (a : ascii) s :
  PyStr.contains (String a "") s = true →
  ∃ k v rest, PyStr.split (String a "") s = k :: v :: rest.
Proof.
  induction s as [|c s IH]; simpl; [done|].
  rewrite split_char_cons.
  destruct (Ascii.eqb a c) eqn:Hc.
  - intros _. pose proof (split_scan_nonempty (String a "") 0 s) as Hne.
    unfold PyStr.split. destruct (PyStr.split_scan (String a "") 0 s) as [|v rest]; [done|].
    by exists "", v, rest.
  - simpl. intros (k & v & rest & ->)%IH. by exists (String c k), v, rest.
Qed.

End Split.

(** ** Computations *)

Ltac py_unfold :=
  unfold mbind, Py_bind, bind, mret, Py_ret, ret, raise, emit, call,
    try_finally, try_except in *.

Lemma bind_ret {A B} (a : A) (k : A → Py B) : (ret a ≫= k) = k a.
Proof. py_unfold. by destruct (k a). Qed.

Lemma bind_raise {A B} (e : exn) (k : A → Py B) : (raise e ≫= k) = raise e.
Proof. done. Qed.

Lemma silent_bind {A B} (m : Py A) (k : A → Py B) :
  silent m → (∀ a, silent (k a)) → silent (m ≫= k).
Proof.
  unfold silent. destruct m as [t [e|a]]; simpl; intros ->; [done|].
  intros Hk. specialize (Hk a). py_unfold. by destruct (k a).
Qed.

Lemma silent_getitem {A} (l : list A) i : silent (getitem l i).
Proof. unfold getitem. by destruct (l !! i). Qed.

Lemma silent_for_each {A B} (f : A → Py B) l :
  (∀ x, silent (f x)) → silent (for_each f l).
Proof.
  intros Hf. induction l as [|x l IH]; simpl; [done|].
  apply silent_bind; [done|]. intros y.
  apply silent_bind; [done|]. done.
Qed.

(** ** The cookie table *)

Lemma cookie_item_returns cookie :
  PyStr.contains "=" cookie = true →
  ∃ k v rest, PyStr.split "=" cookie = k :: v :: rest ∧ cookie_item cookie = ret (k, v).
Proof.
  intros (k & v & rest & Hs)%contains_split_second.
  exists k, v, rest. split; [done|].
  unfold cookie_item. rewrite Hs. done.
Qed.

Lemma for_each_cookie_item_returns l :
  Forall (λ c, PyStr.contains "=" c = true) l →
  ∃ items, for_each cookie_item l = ret items.
Proof.
  induction 1 as [|c l Hc _ [items IH]]; simpl; [by eexists|].
  destruct (cookie_item_returns c Hc) as (k & v & rest & _ & ->).
  rewrite bind_ret, IH, bind_ret. by eexists.
Qed.

(** The comprehension never raises: its guard keeps both indexes in range. *)
Lemma cookies_of_returns cookie_header : ∃ cookies, cookies_of cookie_header = ret cookies.
Proof.
  unfold cookies_of.
  destruct (for_each_cookie_item_returns
              (List.filter (PyStr.contains "=") (PyStr.split "; " cookie_header)))
    as [items ->].
  - apply Forall_forall. intros c Hc. apply list_elem_of_In, filter_In in Hc. tauto.
  - rewrite bind_ret. by eexists.
Qed.

Lemma cookies_of_empty : cookies_of "" = ret ∅.
Proof. reflexivity. Qed.

(** Extraction only computes on the request: it calls no collaborator. *)
Lemma authorization_token_silent req : silent (authorization_token req).
Proof.
  unfold authorization_token.
  destruct (headers req !! "Authorization") as [h|]; [|done].
  destruct (PyStr.truthy h); [apply silent_getitem|done].
Qed.

Lemma _extract_token_silent req : silent (_extract_token req).
Proof.
  unfold _extract_token.
  destruct (cookies_of_returns (default "" (headers req !! "Cookie"))) as [cookies ->].
  rewrite bind_ret.
  destruct (cookies !! "auth_token") as [t|]; [|apply authorization_token_silent].
  destruct (PyStr.truthy t); [done|apply authorization_token_silent].
Qed.

(** ** The pipeline *)

Section Pipeline.

Variable jwt_decode : string → string → list string → exn + gmap string value.
Variable pymysql_connect : gmap string value → exn + Connection.
Variable self : JWTAuthenticator.

Local Abbreviation verify := (_verify_token_in_db pymysql_connect self).
Local Abbreviation decode := (_decode_token jwt_decode self).

Lemma verify_missing token_id :
  truthy token_id = false →
  verify token_id = raise (Exn ValueError "Token ID is missing from payload").
Proof. intros H. unfold _verify_token_in_db. by rewrite H. Qed.

Lemma verify_has_record token_id :
  truthy token_id = true → has_record pymysql_connect self token_id →
  verify token_id = (lookup_events token_id, inr tt).
Proof.
  intros Ht (conn & cur & rec & Hconn & Hcur & Hexec & Hfetch & Hrec & Hcc & Hc).
  unfold _verify_token_in_db. rewrite Ht, Hconn. simpl.
  py_unfold. rewrite Hcur, Hexec, Hfetch, Hcc, Hc. simpl.
  unfold no_record. rewrite Hrec. done.
Qed.

(** The lookup calls the store only: the handler is not among its events. *)
Lemma verify_no_call token_id : Forall (λ ev, is_call ev = false) (verify token_id).1.
Proof.
  unfold _verify_token_in_db.
  destruct (truthy token_id); simpl; [|by constructor].
  destruct (pymysql_connect (db_config self)) as [e|conn]; simpl.
  { by repeat constructor. }
  py_unfold.
  destruct (cursor conn) as [e|cur]; simpl.
  { destruct (close conn); simpl; by repeat constructor. }
  destruct (execute cur select_token [token_id]); simpl.
  { destruct (cursor_close cur), (close conn); simpl; by repeat constructor. }
  destruct (fetchone cur select_token [token_id]) as [e|rec]; simpl.
  { destruct (cursor_close cur), (close conn); simpl; by repeat constructor. }
  destruct (no_record rec); simpl;
    destruct (cursor_close cur), (close conn); simpl; by repeat constructor.
Qed.

Lemma handle_returns e :
  ∃ resp, _handle_error e = ([LogError ("JWT validation error: " +:+ exn_str e)], inr resp) ∧
          (status_code resp = 401 ∨ status_code resp = 500)%Z.
Proof.
  unfold _handle_error. py_unfold.
  destruct (isinstance e ExpiredSignatureError); [eexists; split; [done|by left]|].
  destruct (isinstance e InvalidTokenError); [eexists; split; [done|by left]|].
  destruct (isinstance e ValueError); eexists; (split; [done|]); [by left|by right].
Qed.



(** The [try] block, check by check. *)
Lemma try_block_cases req :
  match (_extract_token req).2 with
  | inl e => try_block jwt_decode pymysql_connect self req = ([], inl e)
  | inr token =>
      match jwt_decode token (secret_key self) ["HS256"] with
      | inl e => try_block jwt_decode pymysql_connect self req = ([], inl e)
      | inr payload =>
          let v := verify (default VNone (payload !! "token_id")) in
          try_block jwt_decode pymysql_connect self req =
            (v.1, match v.2 with
                  | inl e => inl e
                  | inr _ => inr (set_jwt_payload payload req)
                  end)
      end
  end.
Proof.
  unfold try_block. pose proof (_extract_token_silent req) as Hs. unfold silent in Hs.
  destruct (_extract_token req) as [t [e|token]]; simpl in *; subst t; [done|].
  unfold _decode_token. py_unfold.
  destruct (jwt_decode token (secret_key self) ["HS256"]) as [e|payload]; [done|].
  simpl. destruct (verify (default VNone (payload !! "token_id"))) as [t [e|[]]]; simpl; [done|].
  by rewrite app_nil_r.
Qed.

(** [decorated_function] after its [try] block: the error response, or the
    call of the handler. *)
Lemma decorated_function_cases {R} (f : HttpRequest → exn + R) req :
  match try_block jwt_decode pymysql_connect self req with
  | (t, inl e) =>
      ∃ resp, (_handle_error e).2 = inr resp ∧
        (status_code resp = 401 ∨ status_code resp = 500)%Z ∧
        decorated_function jwt_decode pymysql_connect self f req =
          (t ++ [LogError ("JWT validation error: " +:+ exn_str e)], inr (inl resp))
  | (t, inr req') =>
      decorated_function jwt_decode pymysql_connect self f req =
        (t ++ [CallHandler req'],
         match f req' with inl e => inl e | inr r => inr (inr r) end)
  end.
Proof.
  unfold decorated_function.
  destruct (try_block jwt_decode pymysql_connect self req) as [t [e|req']].
  - destruct (handle_returns e) as (resp & Hresp & Hstatus).
    exists resp. rewrite Hresp. split_and!; [done..|].
    unfold try_except. rewrite Hresp. py_unfold. done.
  - py_unfold. by destruct (f req').
Qed.

(** X4.  The store cannot be reached: [connect] raises, the [finally] clause
    reads the unbound [connection], and what reaches [_handle_error] is the
    [UnboundLocalError], answered with status 500. *)
Lemma verify_connect_raises token_id e :
  truthy token_id = true →
  pymysql_connect (db_config self) = inl e →
  ∃ e', verify token_id = ([DbConnect], inl e') ∧
        exn_cls e' = UnboundLocalError ∧
        ∃ resp, (_handle_error e').2 = inr resp ∧ status_code resp = 500%Z.
Proof.
  intros Ht Hconn. unfold _verify_token_in_db. rewrite Ht, Hconn. simpl.
  eexists. split_and!; [reflexivity..|]. by eexists.
Qed.

(** ** The properties of the decorator *)

(** C1.  A request whose token decodes (well-formed, signed for HS256 with
    the key, unexpired) to claims with a truthy [token_id] that has a record
    in the store: after the store lookup the handler is called, exactly once,
    on the request with [jwt_payload] set to the decoded claims as they are,
    and its outcome is the outcome of the decorated function. *)
Theorem valid_token_reaches_handler {R} (f : HttpRequest → exn + R)
    req token payload token_id :
  _extract_token req = ret token →
  jwt_decode token (secret_key self) ["HS256"] = inr payload →
  payload !! "token_id" = Some token_id →
  truthy token_id = true →
  has_record pymysql_connect self token_id →
  let req' := set_jwt_payload payload req in
  decorated_function jwt_decode pymysql_connect self f req =
    (lookup_events token_id ++ [CallHandler req'],
     match f req' with inl e => inl e | inr r => inr (inr r) end)
  ∧ jwt_payload req' = Some payload
  ∧ headers req' = headers req.
Proof.
  intros Hext Hdec Hid Htruthy Hrec req'. split; [|done].
  pose proof (try_block_cases req) as Htry.
  rewrite Hext in Htry. simpl in Htry. rewrite Hdec, Hid in Htry. simpl in Htry.
  rewrite (verify_has_record _ Htruthy Hrec) in Htry. simpl in Htry.
  pose proof (decorated_function_cases f req) as Hrun.
  rewrite Htry in Hrun. exact Hrun.
Qed.

(** C2.  When extraction, decoding or the store check raises, the handler is
    not called and the decorated function returns the error response of
    [_handle_error] for that exception (status 401 or 500); and a call of
    the handler means that all three checks passed. *)
Theorem handler_runs_only_after_checks {R} (f : HttpRequest → exn + R) req :
  let out := decorated_function jwt_decode pymysql_connect self f req in
  (∀ e, check_raises jwt_decode pymysql_connect self req e →
     Forall (λ ev, is_call ev = false) out.1 ∧
     ∃ resp, out.2 = inr (inl resp) ∧
       (_handle_error e).2 = inr resp ∧
       (status_code resp = 401 ∨ status_code resp = 500)%Z)
  ∧ (∀ req', CallHandler req' ∈ out.1 →
       ∃ payload, checks_pass jwt_decode pymysql_connect self req payload ∧
         req' = set_jwt_payload payload req).
Proof.
  intros out. subst out.
  pose proof (try_block_cases req) as Htry.
  pose proof (decorated_function_cases f req) as Hrun.
  unfold check_raises, checks_pass, _decode_token. simpl.
  destruct (_extract_token req).2 as [e0|token] eqn:Hext.
  { rewrite Htry in Hrun. destruct Hrun as (resp & Hresp & Hst & ->). simpl. split.
    - intros e [[= <-]|(tok & [=] & _)]. split; [by repeat constructor|]. by exists resp.
    - intros req' [=]%list_elem_of_singleton. }
  destruct (jwt_decode token (secret_key self) ["HS256"]) as [e0|payload] eqn:Hdec.
  { rewrite Htry in Hrun. destruct Hrun as (resp & Hresp & Hst & ->). simpl. split.
    - intros e [[=]|(tok & [= <-] & Hcase)].
      rewrite Hdec in Hcase. destruct Hcase as [[= <-]|(p & [=] & _)].
      split; [by repeat constructor|]. by exists resp.
    - intros req' [=]%list_elem_of_singleton. }
  simpl in Htry. pose proof (verify_no_call (default VNone (payload !! "token_id"))) as Hnocall.
  destruct (verify (default VNone (payload !! "token_id"))) as [t [e0|[]]] eqn:Hver;
    simpl in *; rewrite Htry in Hrun.
  - destruct Hrun as (resp & Hresp & Hst & ->). simpl. split.
    + intros e [[=]|(tok & [= <-] & Hcase)].
      rewrite Hdec in Hcase. destruct Hcase as [[=]|(p & [= <-] & Hv)].
      rewrite Hver in Hv. simpl in Hv. injection Hv as <-.
      split; [|by exists resp].
      apply Forall_app. split; [done|by repeat constructor].
    + intros req' [Hin|[=]%list_elem_of_singleton]%elem_of_app.
      rewrite Forall_forall in Hnocall. by apply Hnocall in Hin.
  - rewrite Hrun. simpl. split.
    + intros e [[=]|(tok & [= <-] & Hcase)].
      rewrite Hdec in Hcase. destruct Hcase as [[=]|(p & [= <-] & Hv)].
      rewrite Hver in Hv. done.
    + intros req' [Hin|Heq%list_elem_of_singleton]%elem_of_app.
      { rewrite Forall_forall in Hnocall. by apply Hnocall in Hin. }
      injection Heq as ->. exists payload. split; [|done]. exists token. rewrite Hdec, Hver. done.
Qed.

(** C3.  A token identifier for which the store returns no row is never
    accepted: the lookup raises.  When the identifier is truthy and the
    store calls all return, the exception is the [ValueError] of a
    blacklisted token, answered with status 401. *)
Theorem unknown_token_id_is_rejected token_id conn cur :
  pymysql_connect (db_config self) = inr conn →
  cursor conn = inr cur →
  fetchone cur select_token [token_id] = inr None →
  (∃ e, (verify token_id).2 = inl e)
  ∧ (truthy token_id = true →
     execute cur select_token [token_id] = None →
     cursor_close cur = None →
     close conn = None →
     verify token_id =
       (lookup_events token_id, inl (Exn ValueError "JWT token is blacklisted"))
     ∧ (_handle_error (Exn ValueError "JWT token is blacklisted")).2 =
         inr {| body := error_body "JWT token is blacklisted";
                status_code := 401;
                mimetype := "application/json" |}).
Proof.
  intros Hconn Hcur Hfetch. unfold _verify_token_in_db.
  rewrite Hconn. py_unfold. rewrite Hcur, Hfetch. simpl. split.
  - destruct (truthy token_id); simpl; [|by eexists].
    destruct (execute cur select_token [token_id]); simpl;
      destruct (cursor_close cur), (close conn); simpl; by eexists.
  - intros -> -> -> ->. done.
Qed.

(** C8.  Claims without a [token_id], or with a falsy one (the empty string
    among them): the check raises its own [ValueError] before any store
    call, and the decorated function answers 401 with that message, the
    handler not being called. *)
Theorem missing_token_id_is_rejected {R} (f : HttpRequest → exn + R)
    req token payload :
  _extract_token req = ret token →
  jwt_decode token (secret_key self) ["HS256"] = inr payload →
  (payload !! "token_id" = None ∨
   ∃ v, payload !! "token_id" = Some v ∧ truthy v = false) →
  verify (default VNone (payload !! "token_id")) =
    raise (Exn ValueError "Token ID is missing from payload")
  ∧ decorated_function jwt_decode pymysql_connect self f req =
      ([LogError "JWT validation error: Token ID is missing from payload"],
       inr (inl {| body := error_body "Token ID is missing from payload";
                   status_code := 401;
                   mimetype := "application/json" |})).
Proof.
  intros Hext Hdec Hid.
  assert (truthy (default VNone (payload !! "token_id")) = false) as Hfalsy.
  { destruct Hid as [->|(v & -> & Hv)]; done. }
  pose proof (verify_missing _ Hfalsy) as Hver. split; [done|].
  pose proof (try_block_cases req) as Htry.
  rewrite Hext in Htry. simpl in Htry. rewrite Hdec, Hver in Htry. simpl in Htry.
  unfold decorated_function. rewrite Htry. done.
Qed.

End Pipeline.


(** ** Extraction *)

Lemma contains_char_app (a : ascii) p s :
  PyStr.contains (String a "") (p +:+ String a s) = true.
Proof.
  induction p as [|c p IH]; simpl.
  - by rewrite Ascii.eqb_refl.
  - rewrite IH. apply orb_true_r.
Qed.

(** A Cookie header of one pair whose name and value hold no [=], and which
    holds no pair separator, gives the table of that one pair. *)
Lemma cookies_of_single name v :
  PyStr.contains "=" name = false →
  PyStr.contains "=" v = false →
  PyStr.contains "; " (name +:+ String "=" v) = false →
  cookies_of (name +:+ String "=" v) = ret {[ name := v ]}.
Proof.
  intros Hname Hv Hsep. unfold cookies_of.
  rewrite (split_absent _ _ Hsep). simpl.
  rewrite (contains_char_app "=" name v).
  unfold for_each, cookie_item.
  rewrite (split_char_app "=" name v Hname), (split_absent _ _ Hv). simpl.
  by rewrite insert_empty.
Qed.


(** Without a Cookie header the table is empty and the Authorization
    header decides. *)
Lemma extract_no_cookie req :
  headers req !! "Cookie" = None →
  _extract_token req = authorization_token req.
Proof.
  intros Hc. unfold _extract_token. rewrite Hc. cbn [default].
  by rewrite cookies_of_empty, bind_ret, lookup_empty.
Qed.


(** Missing token: neither a Cookie header nor an Authorization header. *)
Lemma extract_missing_token req :
  headers req !! "Cookie" = None →
  headers req !! "Authorization" = None →
  _extract_token req = raise (Exn ValueError "Token is missing").
Proof.
  intros Hc Ha. rewrite (extract_no_cookie _ Hc).
  unfold authorization_token. by rewrite Ha.
Qed.

(** X11.  The plain case of one cookie: a Cookie header [auth_token=A] whose
    value is not empty and holds neither [=] nor the pair separator is
    returned as it is. *)
Lemma plain_cookie_is_returned req A :
  headers req !! "Cookie" = Some ("auth_token=" +:+ A) →
  A ≠ "" →
  PyStr.contains "=" A = false →
  PyStr.contains "; " A = false →
  _extract_token req = ret A.
Proof.
  intros Hc Hne Heq Hsep. unfold _extract_token. rewrite Hc. cbn [default id].
  assert (cookies_of ("auth_token=" +:+ A) = ret {[ "auth_token" := A ]}) as ->.
  { apply (cookies_of_single "auth_token" A); [reflexivity|exact Heq|exact Hsep]. }
  rewrite bind_ret, lookup_singleton_eq. destruct A; done.
Qed.

(** An Authorization header of one word has no second piece. *)
Lemma authorization_one_word req auth_header :
  headers req !! "Authorization" = Some auth_header →
  PyStr.truthy auth_header = true →
  PyStr.contains " " auth_header = false →
  authorization_token req = raise (Exn IndexError "list index out of range").
Proof.
  intros Ha Ht Hsp. unfold authorization_token.
  rewrite Ha, Ht, (split_absent _ _ Hsp). done.
Qed.



(** A value cut at its first [=]: the pair [name=v=w] enters the table as
    [name] bound to [v]. *)
Lemma cookies_of_cut name v w :
  PyStr.contains "=" name = false →
  PyStr.contains "=" v = false →
  PyStr.contains "; " (name +:+ String "=" (v +:+ String "=" w)) = false →
  cookies_of (name +:+ String "=" (v +:+ String "=" w)) = ret {[ name := v ]}.
Proof.
  intros Hname Hv Hsep. unfold cookies_of.
  rewrite (split_absent _ _ Hsep). simpl.
  rewrite (contains_char_app "=" name _).
  unfold for_each, cookie_item.
  rewrite (split_char_app "=" name _ Hname), (split_char_app "=" v w Hv). simpl.
  by rewrite insert_empty.
Qed.

(** C6, on the code.  The cookie pair is split at every [=] and the second
    piece taken: of the value [YWJjZA==] extraction returns [YWJjZA], and a
    value that starts with [=] counts as empty, the Authorization header
    being used in its place. *)
Theorem cookie_value_is_cut_at_equals :
  _extract_token {| headers := {[ "Cookie" := "auth_token=YWJjZA==" ]};
                    jwt_payload := None |} = ret "YWJjZA"
  ∧ _extract_token {| headers := {[ "Cookie" := "auth_token==x";
                                    "Authorization" := "Bearer B" ]};
                      jwt_payload := None |} = ret "B".
Proof. split; reflexivity. Qed.

(** C5, on the code.  Without a cookie, the one-word Authorization header
    [BearerXYZ] makes extraction raise [IndexError], which the decorated
    function answers with status 500; and a header of another scheme,
    [Token abc], is accepted, its second word being returned. *)
Theorem bearer_without_space_is_internal_error
    jwt_decode pymysql_connect self {R} (f : HttpRequest → exn + R) :
  let req := {| headers := {[ "Authorization" := "BearerXYZ" ]};
                jwt_payload := None |} in
  _extract_token req = raise (Exn IndexError "list index out of range")
  ∧ decorated_function jwt_decode pymysql_connect self f req =
      ([LogError "JWT validation error: list index out of range"],
       inr (inl {| body := error_body "Internal server error during authentication.";
                   status_code := 500;
                   mimetype := "application/json" |}))
  ∧ _extract_token {| headers := {[ "Authorization" := "Token abc" ]};
                      jwt_payload := None |} = ret "abc".
Proof.
  intros req.
  assert (_extract_token req = raise (Exn IndexError "list index out of range")) as Hext
    by reflexivity.
  split_and!; [done| |reflexivity].
  unfold decorated_function, try_block. rewrite Hext. reflexivity.
Qed.

(** ** The allowed algorithm *)

Lemma invalid_token_status e :
  isinstance e InvalidTokenError = true →
  ∃ resp, (_handle_error e).2 = inr resp ∧ status_code resp = 401%Z.
Proof.
  intros Hinv. unfold _handle_error. py_unfold.
  destruct (isinstance e ExpiredSignatureError); [by eexists|].
  rewrite Hinv. by eexists.
Qed.

Section Algorithms.

Variable jwt_decode : string → string → list string → exn + gmap string value.

(** The algorithm named by the header of a token, and PyJWT's check of it:
    a token whose algorithm is not among [algorithms] is refused with an
    [InvalidTokenError] (its [InvalidAlgorithmError]). *)
Variable header_alg : string → option string.

Hypothesis jwt_decode_checks_alg : ∀ token key algorithms alg,
  header_alg token = Some alg →
  alg ∉ algorithms →
  ∃ e, jwt_decode token key algorithms = inl e ∧ isinstance e InvalidTokenError = true.

(** C9.  [_decode_token] hands PyJWT the one algorithm HS256; a token whose
    header names another algorithm is therefore refused: decoding raises an
    invalid-token error, answered with status 401, and returns no claims. *)
Theorem only_hs256_is_accepted self token alg :
  header_alg token = Some alg →
  alg ≠ "HS256" →
  _decode_token jwt_decode self token = ([], jwt_decode token (secret_key self) ["HS256"])
  ∧ ∃ e, _decode_token jwt_decode self token = raise e ∧
         isinstance e InvalidTokenError = true ∧
         ∃ resp, (_handle_error e).2 = inr resp ∧ status_code resp = 401%Z.
Proof.
  intros Halg Hne. split; [done|].
  destruct (jwt_decode_checks_alg token (secret_key self) ["HS256"] alg Halg)
    as (e & He & Hinv).
  { by intros ->%list_elem_of_singleton. }
  exists e. unfold _decode_token. rewrite He.
  split_and!; [done..|]. by apply invalid_token_status.
Qed.

End Algorithms.

Lemma sample_decode_checks_alg token key algorithms alg :
  Sample.header_alg token = Some alg →
  alg ∉ algorithms →
  ∃ e, Sample.decode token key algorithms = inl e ∧ isinstance e InvalidTokenError = true.
Proof.
  unfold Sample.header_alg, Sample.decode.
  destruct (PyStr.split "." token) as [|a [|tid [|sig [|]]]]; try done.
  intros [= ->] Hnotin. rewrite bool_decide_eq_false_2 by done. by eexists.
Qed.

(** ** The properties at sample requests *)

Example expired_token_is_401 :
  (decorated_function Sample.decode (Sample.connect ["t1"]) Sample.auth Sample.handler
     (Sample.request [("Authorization", "Bearer HS256.old.k")])).2 =
  inr (inl {| body := error_body "Token is expired. Please log in again.";
              status_code := 401;
              mimetype := "application/json" |}).
Proof. reflexivity. Qed.

Example bad_signature_is_401 :
  (decorated_function Sample.decode (Sample.connect ["t1"]) Sample.auth Sample.handler
     (Sample.request [("Authorization", "Bearer HS256.t1.forged")])).2 =
  inr (inl {| body := error_body "Invalid token.";
              status_code := 401;
              mimetype := "application/json" |}).
Proof. reflexivity. Qed.

Example missing_token_is_401 :
  decorated_function Sample.decode (Sample.connect ["t1"]) Sample.auth Sample.handler
    (Sample.request []) =
  ([LogError "JWT validation error: Token is missing"],
   inr (inl {| body := error_body "Token is missing";
               status_code := 401;
               mimetype := "application/json" |})).
Proof. reflexivity. Qed.

Example blacklisted_token_is_401 :
  decorated_function Sample.decode (Sample.connect ["t1"]) Sample.auth Sample.handler
    (Sample.request [("Cookie", "auth_token=HS256.t2.k")]) =
  (lookup_events (VStr "t2") ++ [LogError "JWT validation error: JWT token is blacklisted"],
   inr (inl {| body := error_body "JWT token is blacklisted";
               status_code := 401;
               mimetype := "application/json" |})).
Proof. reflexivity. Qed.

Example store_down_is_500 :
  (decorated_function Sample.decode Sample.connect_down Sample.auth Sample.handler
     (Sample.request [("Cookie", "auth_token=HS256.t1.k")])).2 =
  inr (inl {| body := error_body "Internal server error during authentication.";
              status_code := 500;
              mimetype := "application/json" |}).
Proof. reflexivity. Qed.

Example later_cookie_replaces_earlier :
  _extract_token (Sample.request [("Cookie", "auth_token=A; x=1; auth_token=C")]) = ret "C".
Proof. reflexivity. Qed.

(** A valid token whose identifier is in the store. *)
Lemma valid_token_reaches_handler_witness :
  decorated_function Sample.decode (Sample.connect ["t1"]) Sample.auth Sample.handler
    (Sample.request [("Cookie", "auth_token=HS256.t1.k")]) =
  (lookup_events (VStr "t1") ++
     [CallHandler (set_jwt_payload {[ "token_id" := VStr "t1" ]}
                     (Sample.request [("Cookie", "auth_token=HS256.t1.k")]))],
   inr (inr (Some (VStr "t1")))).
Proof.
  refine (proj1 (valid_token_reaches_handler Sample.decode (Sample.connect ["t1"])
           Sample.auth Sample.handler
           (Sample.request [("Cookie", "auth_token=HS256.t1.k")])
           "HS256.t1.k" {[ "token_id" := VStr "t1" ]} (VStr "t1") _ _ _ _ _)).
  - reflexivity.
  - reflexivity.
  - reflexivity.
  - reflexivity.
  - eexists _, _, [VStr "t1"]. repeat split; reflexivity.
Defined.

(** An expired token: decoding raises, the handler is not called. *)
Lemma handler_runs_only_after_checks_witness :
  Forall (λ ev, is_call ev = false)
    (decorated_function Sample.decode (Sample.connect ["t1"]) Sample.auth Sample.handler
       (Sample.request [("Cookie", "auth_token=HS256.old.k")])).1.
Proof.
  apply (proj1 (handler_runs_only_after_checks Sample.decode (Sample.connect ["t1"])
                  Sample.auth Sample.handler
                  (Sample.request [("Cookie", "auth_token=HS256.old.k")]))
           (Exn ExpiredSignatureError "Signature has expired")).
  right. exists "HS256.old.k". split; [reflexivity|]. left. reflexivity.
Defined.

(** An identifier the store does not hold. *)
Lemma unknown_token_id_is_rejected_witness :
  ∃ e, (_verify_token_in_db (Sample.connect ["t1"]) Sample.auth (VStr "t2")).2 = inl e.
Proof.
  refine (proj1 (unknown_token_id_is_rejected (Sample.connect ["t1"]) Sample.auth
                   (VStr "t2") (Sample.connection ["t1"]) (Sample.store_cursor ["t1"])
                   _ _ _)).
  - reflexivity.
  - reflexivity.
  - reflexivity.
Defined.



(** A token whose claims carry no identifier. *)
Lemma missing_token_id_is_rejected_witness :
  decorated_function Sample.decode (Sample.connect ["t1"]) Sample.auth Sample.handler
    (Sample.request [("Cookie", "auth_token=HS256..k")]) =
  ([LogError "JWT validation error: Token ID is missing from payload"],
   inr (inl {| body := error_body "Token ID is missing from payload";
               status_code := 401;
               mimetype := "application/json" |})).
Proof.
  refine (proj2 (missing_token_id_is_rejected Sample.decode (Sample.connect ["t1"])
           Sample.auth Sample.handler
           (Sample.request [("Cookie", "auth_token=HS256..k")])
           "HS256..k" ∅ _ _ _)).
  - reflexivity.
  - reflexivity.
  - left. reflexivity.
Defined.

(** A token that names the algorithm [none]. *)
Lemma only_hs256_is_accepted_witness :
  ∃ e, _decode_token Sample.decode Sample.auth "none.t1.k" = raise e ∧
       isinstance e InvalidTokenError = true.
Proof.
  destruct (only_hs256_is_accepted Sample.decode Sample.header_alg
              sample_decode_checks_alg Sample.auth "none.t1.k" "none")
    as (_ & e & He & Hinv & _).
  - reflexivity.
  - discriminate.
  - exists e. split; [exact He|exact Hinv].
Defined.


(** ** The store lookup, path by path *)

Section Lookup.

Variable pymysql_connect : gmap string value → exn + Connection.
Variable self : JWTAuthenticator.

Local Abbreviation verify := (_verify_token_in_db pymysql_connect self).

(** X1.  The lookup returns only for a truthy identifier whose every store call
    returned and whose [fetchone] gave a row; on every other path it
    raises. *)
Theorem verify_returns_iff token_id :
  (verify token_id).2 = inr tt ↔
  truthy token_id = true ∧ has_record pymysql_connect self token_id.
Proof.
  split.
  - unfold _verify_token_in_db, has_record.
    destruct (truthy token_id); [|done].
    destruct (pymysql_connect (db_config self)) as [e|conn]; [done|].
    py_unfold. simpl.
    destruct (cursor conn) as [e|cur] eqn:Hcur; simpl.
    { by destruct (close conn). }
    destruct (execute cur select_token [token_id]) eqn:Hexec; simpl.
    { by destruct (cursor_close cur), (close conn). }
    destruct (fetchone cur select_token [token_id]) as [e|[rec|]] eqn:Hfetch; simpl.
    { by destruct (cursor_close cur), (close conn). }
    + destruct (row_truthy rec) eqn:Hrow; simpl;
        destruct (cursor_close cur) eqn:Hcc, (close conn) eqn:Hc; simpl; try done.
      intros _. split; [done|]. by exists conn, cur, rec.
    + by destruct (cursor_close cur), (close conn).
  - intros [Ht Hrec]. by rewrite (verify_has_record _ _ _ Ht Hrec).
Qed.

Ltac not_among :=
  let H := fresh in
  intros H; repeat (apply elem_of_cons in H as [H|H]; [discriminate H|]);
  by apply elem_of_nil in H.

Ltac closed_after t' :=
  exists (DbCursor :: (t' ++ [DbCursorClose]));
  split_and!; [reflexivity|not_among|];
  intros ? _; exists t'; split; [reflexivity|not_among].

(** X2.  Once [connect] has returned a connection, the lookup ends with closing
    it, on every path and exactly once; and a cursor, once obtained, is
    closed just before. *)
Theorem connection_is_always_closed token_id conn :
  truthy token_id = true →
  pymysql_connect (db_config self) = inr conn →
  ∃ t, (verify token_id).1 = DbConnect :: (t ++ [DbClose])
       ∧ (DbClose ∉ t)
       ∧ ∀ cur, cursor conn = inr cur →
           ∃ t', t = DbCursor :: (t' ++ [DbCursorClose]) ∧ (DbCursorClose ∉ t').
Proof.
  intros Ht Hconn. unfold _verify_token_in_db. rewrite Ht, Hconn. py_unfold. simpl.
  destruct (cursor conn) as [e|cur]; simpl.
  { exists [DbCursor]. destruct (close conn); simpl; split_and!; try done;
      by intros [=]%list_elem_of_singleton. }
  destruct (execute cur select_token [token_id]); simpl.
  { destruct (cursor_close cur), (close conn); simpl; closed_after [DbExecute select_token [token_id]]. }
  destruct (fetchone cur select_token [token_id]) as [e|rec]; simpl.
  { destruct (cursor_close cur), (close conn); simpl;
      closed_after [DbExecute select_token [token_id]; DbFetchone]. }
  destruct (no_record rec); simpl;
    destruct (cursor_close cur), (close conn); simpl;
    closed_after [DbExecute select_token [token_id]; DbFetchone].
Qed.

(** X3.  An exception of [connection.close()] replaces whatever the lookup had
    come to, a found record included; with the connection closing well, an
    exception of the closing cursor does the same. *)
Theorem close_failure_replaces_outcome token_id conn e :
  truthy token_id = true →
  pymysql_connect (db_config self) = inr conn →
  (close conn = Some e → (verify token_id).2 = inl e)
  ∧ (∀ cur, cursor conn = inr cur → cursor_close cur = Some e → close conn = None →
       (verify token_id).2 = inl e).
Proof.
  intros Ht Hconn. unfold _verify_token_in_db. rewrite Ht, Hconn. py_unfold. simpl.
  split.
  - intros Hc. rewrite Hc.
    destruct (cursor conn) as [e0|cur]; simpl; [done|].
    destruct (execute cur select_token [token_id]); simpl.
    { by destruct (cursor_close cur). }
    destruct (fetchone cur select_token [token_id]) as [e0|rec]; simpl.
    { by destruct (cursor_close cur). }
    by destruct (no_record rec), (cursor_close cur).
  - intros cur Hcur Hcc Hc. rewrite Hcur, Hcc, Hc. simpl.
    destruct (execute cur select_token [token_id]); simpl; [done|].
    destruct (fetchone cur select_token [token_id]) as [e0|rec]; simpl; [done|].
    by destruct (no_record rec).
Qed.

Ltac each_event Hexec :=
  repeat (apply List.Forall_cons; [first [exact Hexec | by intros ? ? [=]]|]);
  apply List.Forall_nil.

(** X5.  The one statement the lookup ever executes is the fixed SELECT, with
    the token identifier as its only argument: the identifier never becomes
    part of the statement text. *)
Theorem only_the_fixed_select_is_executed token_id :
  Forall (λ ev, ∀ sql args, ev = DbExecute sql args →
                  sql = "SELECT * FROM jwt_token WHERE token_id = %s" ∧
                  args = [token_id])
         (_verify_token_in_db pymysql_connect self token_id).1.
Proof.
  assert (∀ sql args, DbExecute select_token [token_id] = DbExecute sql args →
            sql = "SELECT * FROM jwt_token WHERE token_id = %s" ∧ args = [token_id])
    as Hexec by (by intros sql args [= <- <-]).
  unfold _verify_token_in_db.
  destruct (truthy token_id); simpl; [|by constructor].
  destruct (pymysql_connect (db_config self)) as [e|conn]; simpl.
  { each_event Hexec. }
  py_unfold.
  destruct (cursor conn) as [e|cur]; simpl.
  { destruct (close conn); simpl; each_event Hexec. }
  destruct (execute cur select_token [token_id]); simpl.
  { destruct (cursor_close cur), (close conn); simpl; each_event Hexec. }
  destruct (fetchone cur select_token [token_id]) as [e|rec]; simpl.
  { destruct (cursor_close cur), (close conn); simpl; each_event Hexec. }
  destruct (no_record rec); simpl;
    destruct (cursor_close cur), (close conn); simpl; each_event Hexec.
Qed.

End Lookup.

Lemma verify_returns_iff_witness :
  (_verify_token_in_db (Sample.connect ["t1"]) Sample.auth (VStr "t1")).2 = inr tt.
Proof.
  apply (verify_returns_iff (Sample.connect ["t1"]) Sample.auth (VStr "t1")).
  split; [reflexivity|].
  exists (Sample.connection ["t1"]), (Sample.store_cursor ["t1"]), [VStr "t1"].
  repeat split; reflexivity.
Defined.

Lemma connection_is_always_closed_witness :
  ∃ t, (_verify_token_in_db (Sample.connect ["t1"]) Sample.auth (VStr "t2")).1
       = DbConnect :: (t ++ [DbClose]).
Proof.
  destruct (connection_is_always_closed (Sample.connect ["t1"]) Sample.auth
              (VStr "t2") (Sample.connection ["t1"]) eq_refl eq_refl)
    as (t & Ht & _).
  exists t. exact Ht.
Defined.

Lemma close_failure_replaces_outcome_witness :
  (_verify_token_in_db
     (λ _, inr {| cursor := inr (Sample.store_cursor ["t1"]);
                  close := Some (Exn OperationalError "(2013, 'Lost connection')") |})
     Sample.auth (VStr "t1")).2
  = inl (Exn OperationalError "(2013, 'Lost connection')").
Proof.
  apply (close_failure_replaces_outcome
           (λ _, inr {| cursor := inr (Sample.store_cursor ["t1"]);
                        close := Some (Exn OperationalError "(2013, 'Lost connection')") |})
           Sample.auth (VStr "t1") _ (Exn OperationalError "(2013, 'Lost connection')")
           eq_refl eq_refl).
  reflexivity.
Defined.

Lemma verify_connect_raises_witness :
  ∃ e', _verify_token_in_db Sample.connect_down Sample.auth (VStr "t1")
        = ([DbConnect], inl e') ∧ exn_cls e' = UnboundLocalError.
Proof.
  destruct (verify_connect_raises Sample.connect_down Sample.auth (VStr "t1")
              (Exn OperationalError "(2003, 'Can not connect to MySQL server')")
              eq_refl eq_refl)
    as (e' & Hrun & Hcls & _).
  exists e'. split; [exact Hrun|exact Hcls].
Defined.

(** ** The cookie table, pair by pair *)

(** The first pair of a header ends at the first pair separator. *)
Lemma split_pairs_app p rest :
  PyStr.contains "; " p = false →
  PyStr.split "; " (p +:+ String ";" (String " " rest)) = p :: PyStr.split "; " rest.
Proof.
  unfold PyStr.split. induction p as [|c p IH]; intros Hp; [reflexivity|].
  change (String c p +:+ String ";" (String " " rest))
    with (String c (p +:+ String ";" (String " " rest))).
  cbn [PyStr.contains] in Hp. apply orb_false_iff in Hp as [Hhere Hlater].
  cbn [PyStr.split_scan].
  assert (PyStr.startswith "; " (String c (p +:+ String ";" (String " " rest))) = false)
    as ->.
  { cbn [PyStr.startswith] in *. destruct (Ascii.eqb ";" c); [|done].
    destruct p as [|d p]; [reflexivity|].
    change (String d p +:+ String ";" (String " " rest))
      with (String d (p +:+ String ";" (String " " rest))).
    cbn [PyStr.startswith] in *. by destruct (Ascii.eqb " " d). }
  by rewrite (IH Hlater).
Qed.

Lemma split_second_contains (a : ascii) s k v rest :
  PyStr.split (String a "") s = k :: v :: rest →
  PyStr.contains (String a "") s = true.
Proof.
  intros Hs. destruct (PyStr.contains (String a "") s) eqn:Hc; [done|].
  by rewrite (split_absent _ _ Hc) in Hs.
Qed.

Lemma cookie_item_of_split cookie k v rest :
  PyStr.split "=" cookie = k :: v :: rest → cookie_item cookie = ret (k, v).
Proof. intros Hs. unfold cookie_item. by rewrite Hs. Qed.

(** The items of the comprehension, each read off its piece. *)
Lemma for_each_cookie_item_spec l :
  Forall (λ c, PyStr.contains "=" c = true) l →
  ∃ items, for_each cookie_item l = ret items ∧
    Forall2 (λ piece item, ∃ rest, PyStr.split "=" piece = item.1 :: item.2 :: rest)
            l items.
Proof.
  induction 1 as [|c l Hc _ (items & Hrun & Hitems)]; simpl.
  { exists []. split; [done|constructor]. }
  destruct (cookie_item_returns c Hc) as (k & v & rest & Hs & ->).
  rewrite bind_ret, Hrun, bind_ret. exists ((k, v) :: items).
  split; [done|]. constructor; [by exists rest|done].
Qed.

Lemma filter_contains_Forall h :
  Forall (λ c, PyStr.contains "=" c = true)
         (List.filter (PyStr.contains "=") (PyStr.split "; " h)).
Proof. apply Forall_forall. intros c Hc. apply list_elem_of_In, filter_In in Hc. tauto. Qed.

(** Filling the dict item after item: what was there stays unless an item
    replaces it. *)
Lemma foldl_insert_union (items : list (string * string)) (m : gmap string string) :
  foldl (λ d item, <[item.1 := item.2]> d) m items =
  foldl (λ d item, <[item.1 := item.2]> d) ∅ items ∪ m.
Proof.
  revert m. induction items as [|[k v] items IH]; intros m; simpl.
  { by rewrite (left_id_L ∅ (∪)). }
  rewrite (IH (<[k:=v]> m)), (IH (<[k:=v]> ∅)).
  rewrite insert_empty, insert_union_singleton_l. by rewrite (assoc_L (∪)).
Qed.

Lemma foldl_insert_lookup (items : list (string * string)) (m : gmap string string) k v :
  foldl (λ d item, <[item.1 := item.2]> d) m items !! k = Some v →
  m !! k = Some v ∨ (k, v) ∈ items.
Proof.
  revert m. induction items as [|[k' v'] items IH]; intros m; simpl; [by left|].
  intros [Hm|Hin]%IH; [|right; by right].
  destruct (decide (k' = k)) as [->|Hne].
  - rewrite lookup_insert_eq in Hm. injection Hm as ->. right. by left.
  - rewrite lookup_insert_ne in Hm by done. by left.
Qed.

(** X6.  Every entry of the cookie table is the first two pieces of a pair of the
    header, split at [=]; a Cookie header never makes the comprehension
    raise. *)
Theorem cookie_entries_come_from_pairs cookie_header :
  ∃ cookies, cookies_of cookie_header = ret cookies ∧
    ∀ k v, cookies !! k = Some v →
      ∃ piece rest, piece ∈ PyStr.split "; " cookie_header ∧
                    PyStr.split "=" piece = k :: v :: rest.
Proof.
  unfold cookies_of.
  destruct (for_each_cookie_item_spec _ (filter_contains_Forall cookie_header))
    as (items & -> & Hitems).
  rewrite bind_ret. eexists. split; [done|].
  intros k v [Hempty|Hin]%foldl_insert_lookup; [by rewrite lookup_empty in Hempty|].
  apply list_elem_of_lookup in Hin as [i Hi].
  destruct (Forall2_lookup_r _ _ _ _ _ Hitems Hi) as (piece & Hpiece & rest & Hsplit).
  exists piece, rest. split; [|done].
  apply list_elem_of_lookup_2 in Hpiece. apply list_elem_of_In in Hpiece.
  apply filter_In in Hpiece as [Hpiece _]. by apply list_elem_of_In.
Qed.

(** X7.  A header that starts with a pair and goes on behind the separator: the
    table of the rest, with the pair added where the rest does not bind its
    name.  Of two pairs of one name the later is kept. *)
Theorem later_cookie_wins piece k v more rest cookies :
  PyStr.contains "; " piece = false →
  PyStr.split "=" piece = k :: v :: more →
  cookies_of rest = ret cookies →
  cookies_of (piece +:+ String ";" (String " " rest)) = ret (cookies ∪ {[ k := v ]}).
Proof.
  intros Hsep Hsplit Hrest. unfold cookies_of in *.
  rewrite (split_pairs_app _ _ Hsep). cbn [List.filter].
  rewrite (split_second_contains _ _ _ _ _ Hsplit).
  destruct (for_each_cookie_item_spec _ (filter_contains_Forall rest))
    as (items & Hrun & _).
  rewrite Hrun, bind_ret in Hrest. injection Hrest as <-.
  cbn [for_each]. rewrite (cookie_item_of_split _ _ _ _ Hsplit), bind_ret, Hrun, !bind_ret.
  cbn [foldl fst snd]. by rewrite foldl_insert_union, insert_empty.
Qed.

(** X8.  A piece without [=] is passed over. *)
Theorem piece_without_equals_is_skipped piece rest :
  PyStr.contains "; " piece = false →
  PyStr.contains "=" piece = false →
  cookies_of (piece +:+ String ";" (String " " rest)) = cookies_of rest.
Proof.
  intros Hsep Heq. unfold cookies_of.
  rewrite (split_pairs_app _ _ Hsep). cbn [List.filter]. by rewrite Heq.
Qed.

Lemma later_cookie_wins_witness :
  cookies_of "auth_token=A; auth_token=C" = ret ({[ "auth_token" := "C" ]} ∪ {[ "auth_token" := "A" ]})
  ∧ ({[ "auth_token" := "C" ]} ∪ {[ "auth_token" := "A" ]} : gmap string string) !! "auth_token"
    = Some "C".
Proof.
  split; [|reflexivity].
  apply (later_cookie_wins "auth_token=A" "auth_token" "A" [] "auth_token=C"
           {[ "auth_token" := "C" ]}); reflexivity.
Defined.

Lemma piece_without_equals_is_skipped_witness :
  cookies_of "secure; auth_token=A" = cookies_of "auth_token=A".
Proof.
  apply (piece_without_equals_is_skipped "secure" "auth_token=A"); reflexivity.
Defined.

(** ** The Authorization header *)

Lemma append_empty s : s +:+ "" = s.
Proof.
  induction s as [|c s IH]; [done|].
  change (String c s +:+ "") with (String c (s +:+ "")). by rewrite IH.
Qed.

(** X9.  Extraction fails in two ways only, both on a request without a usable
    cookie: [ValueError] when the Authorization header is absent or empty,
    [IndexError] when it is one word without a space. *)
Theorem extraction_raises_only req e :
  (_extract_token req).2 = inl e →
  (e = Exn ValueError "Token is missing" ∧
   (headers req !! "Authorization" = None ∨ headers req !! "Authorization" = Some ""))
  ∨ (e = Exn IndexError "list index out of range" ∧
     ∃ auth_header, headers req !! "Authorization" = Some auth_header ∧
                    auth_header ≠ "" ∧ PyStr.contains " " auth_header = false).
Proof.
  assert ((authorization_token req).2 = inl e →
          (e = Exn ValueError "Token is missing" ∧
           (headers req !! "Authorization" = None ∨
            headers req !! "Authorization" = Some ""))
          ∨ (e = Exn IndexError "list index out of range" ∧
             ∃ auth_header, headers req !! "Authorization" = Some auth_header ∧
                            auth_header ≠ "" ∧ PyStr.contains " " auth_header = false))
    as Hauth.
  { unfold authorization_token.
    destruct (headers req !! "Authorization") as [h|]; [|intros [= <-]; left; auto].
    destruct h as [|c h]; [intros [= <-]; left; auto|]. cbn [PyStr.truthy].
    destruct (PyStr.contains " " (String c h)) eqn:Hsp.
    - apply contains_split_second in Hsp as (k & v & rest & ->). done.
    - rewrite (split_absent _ _ Hsp). intros [= <-]. right. split; [done|].
      by exists (String c h). }
  unfold _extract_token.
  destruct (cookies_of_returns (default "" (headers req !! "Cookie"))) as [cookies ->].
  rewrite bind_ret.
  destruct (cookies !! "auth_token") as [t|]; [|done].
  by destruct (PyStr.truthy t).
Qed.

(** X10.  Without a Cookie header, the token is the second word of the
    Authorization header, whatever its first word: the text between the
    first space and the next one, or the end. *)
Theorem authorization_second_word req scheme token rest :
  headers req !! "Cookie" = None →
  headers req !! "Authorization" = Some (scheme +:+ String " " (token +:+ rest)) →
  PyStr.contains " " scheme = false →
  PyStr.contains " " token = false →
  (rest = "" ∨ ∃ more, rest = String " " more) →
  _extract_token req = ret token.
Proof.
  intros Hc Ha Hscheme Htoken Hrest.
  rewrite (extract_no_cookie _ Hc). unfold authorization_token. rewrite Ha.
  assert (PyStr.truthy (scheme +:+ String " " (token +:+ rest)) = true) as ->
    by (by destruct scheme).
  rewrite (split_char_app " " scheme _ Hscheme).
  destruct Hrest as [->|[more ->]].
  - rewrite append_empty.
    by rewrite (split_absent _ _ Htoken).
  - by rewrite (split_char_app " " token more Htoken).
Qed.

Lemma extraction_raises_only_witness :
  (Exn ValueError "Token is missing" = Exn ValueError "Token is missing" ∧
   (headers (Sample.request []) !! "Authorization" = None ∨
    headers (Sample.request []) !! "Authorization" = Some ""))
  ∨ (Exn ValueError "Token is missing" = Exn IndexError "list index out of range" ∧
     ∃ auth_header, headers (Sample.request []) !! "Authorization" = Some auth_header ∧
                    auth_header ≠ "" ∧ PyStr.contains " " auth_header = false).
Proof.
  apply (extraction_raises_only (Sample.request []) (Exn ValueError "Token is missing")).
  reflexivity.
Defined.

Lemma authorization_second_word_witness :
  _extract_token (Sample.request [("Authorization", "Bearer abc def")]) = ret "abc".
Proof.
  apply (authorization_second_word (Sample.request [("Authorization", "Bearer abc def")])
           "Bearer" "abc" " def").
  - reflexivity.
  - reflexivity.
  - reflexivity.
  - reflexivity.
  - right. by exists "def".
Defined.

(** ** The decorated function, run by run *)

Section Runs.

Variable jwt_decode : string → string → list string → exn + gmap string value.
Variable pymysql_connect : gmap string value → exn + Connection.
Variable self : JWTAuthenticator.

Local Abbreviation verify := (_verify_token_in_db pymysql_connect self).
Local Abbreviation decorated := (decorated_function jwt_decode pymysql_connect self).




(** X14.  A cookie token that does not decode is the end of the request: the
    Authorization header is not tried in its place, whatever it holds. *)
Theorem bad_cookie_token_is_not_rescued {R} (f : HttpRequest → exn + R)
    req cookies A e :
  cookies_of (default "" (headers req !! "Cookie")) = ret cookies →
  cookies !! "auth_token" = Some A →
  A ≠ "" →
  jwt_decode A (secret_key self) ["HS256"] = inl e →
  ∃ resp, (_handle_error e).2 = inr resp ∧
    decorated f req =
      ([LogError ("JWT validation error: " +:+ exn_str e)], inr (inl resp)).
Proof.
  intros Hcookies HA Hne Hdec.
  assert (_extract_token req = ret A) as Hext.
  { unfold _extract_token. rewrite Hcookies, bind_ret, HA. by destruct A. }
  pose proof (try_block_cases jwt_decode pymysql_connect self req) as Htry.
  rewrite Hext in Htry. simpl in Htry. rewrite Hdec in Htry.
  pose proof (decorated_function_cases jwt_decode pymysql_connect self f req) as Hrun.
  rewrite Htry in Hrun. destruct Hrun as (resp & Hresp & _ & Hrun).
  by exists resp.
Qed.

(** X15.  The store is asked only for a request whose token was extracted and
    decoded and whose claims hold a truthy [token_id]: a missing or invalid
    token costs no store call. *)
Theorem store_is_asked_only_after_decoding {R} (f : HttpRequest → exn + R) req ev :
  ev ∈ (decorated f req).1 →
  is_store_event ev = true →
  ∃ token payload,
    (_extract_token req).2 = inr token ∧
    jwt_decode token (secret_key self) ["HS256"] = inr payload ∧
    truthy (default VNone (payload !! "token_id")) = true.
Proof.
  pose proof (try_block_cases jwt_decode pymysql_connect self req) as Htry.
  pose proof (decorated_function_cases jwt_decode pymysql_connect self f req) as Hrun.
  destruct (_extract_token req).2 as [e|token].
  { rewrite Htry in Hrun. destruct Hrun as (resp & _ & _ & ->). simpl.
    intros ->%list_elem_of_singleton. discriminate. }
  destruct (jwt_decode token (secret_key self) ["HS256"]) as [e|payload] eqn:Hdec.
  { rewrite Htry in Hrun. destruct Hrun as (resp & _ & _ & ->). simpl.
    intros ->%list_elem_of_singleton. discriminate. }
  intros Hin Hstore. exists token, payload. split_and!; [done..|].
  destruct (truthy (default VNone (payload !! "token_id"))) eqn:Htruthy; [done|].
  simpl in Htry. rewrite (verify_missing _ _ _ Htruthy) in Htry. simpl in Htry.
  rewrite Htry in Hrun. destruct Hrun as (resp & _ & _ & Hrun).
  rewrite Hrun in Hin. simpl in Hin.
  apply list_elem_of_singleton in Hin as ->. discriminate.
Qed.

End Runs.

Lemma store_is_asked_only_after_decoding_witness :
  ∃ token payload,
    (_extract_token (Sample.request [("Cookie", "auth_token=HS256.t2.k")])).2 = inr token ∧
    Sample.decode token (secret_key Sample.auth) ["HS256"] = inr payload ∧
    truthy (default VNone (payload !! "token_id")) = true.
Proof.
  apply (store_is_asked_only_after_decoding Sample.decode (Sample.connect ["t1"])
           Sample.auth Sample.handler
           (Sample.request [("Cookie", "auth_token=HS256.t2.k")]) DbConnect).
  - left.
  - reflexivity.
Defined.


Lemma bad_cookie_token_is_not_rescued_witness :
  ∃ resp,
    decorated_function Sample.decode (Sample.connect ["t1"]) Sample.auth Sample.handler
      (Sample.request [("Cookie", "auth_token=HS256.t1.forged");
                       ("Authorization", "Bearer HS256.t1.k")])
    = ([LogError "JWT validation error: Signature verification failed"], inr (inl resp)).
Proof.
  destruct (bad_cookie_token_is_not_rescued Sample.decode (Sample.connect ["t1"])
              Sample.auth Sample.handler
              (Sample.request [("Cookie", "auth_token=HS256.t1.forged");
                               ("Authorization", "Bearer HS256.t1.k")])
              {[ "auth_token" := "HS256.t1.forged" ]} "HS256.t1.forged"
              (Exn InvalidSignatureError "Signature verification failed"))
    as (resp & _ & Hrun).
  - reflexivity.
  - reflexivity.
  - discriminate.
  - reflexivity.
  - exists resp. exact Hrun.
Defined.

Lemma plain_cookie_is_returned_witness :
  _extract_token (Sample.request [("Cookie", "auth_token=HS256.t1.k")]) = ret "HS256.t1.k".
Proof.
  apply (plain_cookie_is_returned (Sample.request [("Cookie", "auth_token=HS256.t1.k")])
           "HS256.t1.k").
  - reflexivity.
  - discriminate.
  - reflexivity.
  - reflexivity.
Defined.
